(** * OrbitX tooltest fixtures: [sample.py] and [test_functions.py]

    A shallow embedding of the two Python fixture files and the proofs of
    their specification.

    Python objects live in a store and are handled through references, so
    that the dict returned by [DataProcessor.process_data] and the dict kept
    in [self.data] are one object.  Every Python function is a computation
    in a state-and-exception monad over that store. *)

From Stdlib Require Import ZArith Lia QArith Floats.
From stdpp Require Import base option list strings gmap.

Local Open Scope string_scope.
Local Open Scope list_scope.
Local Open Scope Z_scope.

(** ** Values and objects *)

(** Identity of an object: its index in the store. *)
Abbreviation loc := nat.

(** The values the two files handle: [None], [bool], [int] (unbounded),
    [float] (binary64), [str] (one [ascii] per character) and references
    to mutable objects. *)
Inductive value : Type :=
  | VNone
  | VBool (b : bool)
  | VInt (z : Z)
  | VFloat (f : float)
  | VStr (s : string)
  | VRef (l : loc).

(** Mutable objects: a [list], a [dict] with [str] keys, and an instance of
    one of the classes of the two files with its attribute dictionary. *)
Inductive object : Type :=
  | OList (xs : list value)
  | ODict (d : gmap string value)
  | OInstance (cls : string) (attrs : gmap string value).

(** The store.  Objects are allocated at the end and never freed. *)
Abbreviation heap := (list object).

(** ** The monad *)

(** [InvalidRef] is no Python exception: it flags a reference that points
    outside the store, which no Python state contains. *)
Inductive exn : Type := TypeError | AttributeError | OverflowError | InvalidRef.

Inductive result (A : Type) : Type :=
  | Ok (a : A)
  | Raise (e : exn).
Arguments Ok {A} a.
Arguments Raise {A} e.

Definition M (A : Type) : Type := heap -> result (A * heap).

#[global] Instance M_ret : MRet M := fun A a h => Ok (a, h).
#[global] Instance M_bind : MBind M := fun A B f m h =>
  match m h with
  | Ok (a, h') => f a h'
  | Raise e => Raise e
  end.

Definition raise {A} (e : exn) : M A := fun _ => Raise e.

(** ** Python's primitives on the store *)

(** A fresh object; its reference is returned. *)
Definition alloc (o : object) : M value :=
  fun h => Ok (VRef (List.length h), h ++ [o]).

(** [self.name] for a name that is no method: only instances carry such
    attributes, in their attribute dictionary. *)
Definition getattr (self : value) (name : string) : M value := fun h =>
  match self with
  | VRef l =>
      match h !! l with
      | Some (OInstance _ attrs) =>
          match attrs !! name with
          | Some v => Ok (v, h)
          | None => Raise AttributeError
          end
      | Some _ => Raise AttributeError
      | None => Raise InvalidRef
      end
  | _ => Raise AttributeError
  end.

(** [self.name = v]. *)
Definition setattr (self : value) (name : string) (v : value) : M unit := fun h =>
  match self with
  | VRef l =>
      match h !! l with
      | Some (OInstance cls attrs) =>
          Ok (tt, <[l := OInstance cls (<[name := v]> attrs)]> h)
      | Some _ => Raise AttributeError
      | None => Raise InvalidRef
      end
  | _ => Raise AttributeError
  end.

(** [len(v)]. *)
Definition len (v : value) : M value := fun h =>
  match v with
  | VStr s => Ok (VInt (Z.of_nat (String.length s)), h)
  | VRef l =>
      match h !! l with
      | Some (OList xs) => Ok (VInt (Z.of_nat (List.length xs)), h)
      | Some (ODict d) => Ok (VInt (Z.of_nat (size d)), h)
      | Some (OInstance _ _) => Raise TypeError
      | None => Raise InvalidRef
      end
  | _ => Raise TypeError
  end.

(** [v.append(x)]: only lists have the method. *)
Definition append (v x : value) : M value := fun h =>
  match v with
  | VRef l =>
      match h !! l with
      | Some (OList xs) => Ok (VNone, <[l := OList (xs ++ [x])]> h)
      | Some _ => Raise AttributeError
      | None => Raise InvalidRef
      end
  | _ => Raise AttributeError
  end.

(** The methods each class defines. *)
Definition class_methods (cls : string) : list string :=
  if decide (cls = "DataProcessor") then ["__init__"; "process_data"]
  else if decide (cls = "SampleClass") then ["method_one"; "method_two"]
  else [].

(** Method lookup [self.name] before a call: an instance attribute of that
    name shadows the method (and no value of this model is callable),
    otherwise the class of [self] has to define it. *)
Definition resolve (self : value) (name : string) : M unit := fun h =>
  match self with
  | VRef l =>
      match h !! l with
      | Some (OInstance cls attrs) =>
          match attrs !! name with
          | Some _ => Raise TypeError
          | None =>
              if decide (name ∈ class_methods cls) then Ok (tt, h)
              else Raise AttributeError
          end
      | Some _ => Raise AttributeError
      | None => Raise InvalidRef
      end
  | _ => Raise AttributeError
  end.

(** ** sample.py *)

Module DataProcessor.

(** [def __init__(self): self.data = []] *)
Definition __init__ (self : value) : M value :=
  data ← alloc (OList []);
  setattr self "data" data;;
  mret VNone.

(** [DataProcessor()]: a new instance, initialised by [__init__]. *)
Definition new : M value :=
  self ← alloc (OInstance "DataProcessor" ∅);
  __init__ self;;
  mret self.

(** [def process_data(self, input_data)] *)
Definition process_data (self input_data : value) : M value :=
  data ← getattr self "data";
  n ← len data;
  processed ← alloc (ODict {[ "id" := n;
                              "content" := input_data;
                              "status" := VStr "processed" ]});
  data ← getattr self "data";
  append data processed;;
  mret processed.

End DataProcessor.

(** [for x in xs: acc = body(acc, x)], the loop state threaded through. *)
Fixpoint for_in {A} (body : A -> value -> M A) (acc : A) (xs : list value) : M A :=
  match xs with
  | [] => mret acc
  | x :: xs' => acc' ← body acc x; for_in body acc' xs'
  end.

(** A [bool] counts as the [int] 0 or 1 in arithmetic. *)
Definition as_int (v : value) : option Z :=
  match v with
  | VInt z => Some z
  | VBool b => Some (if b then 1 else 0)
  | _ => None
  end.

(** The numbers of Python that [calculate_sum] adds up: its running total
    is an [int] or a [float]. *)
Inductive number : Type :=
  | NInt (z : Z)
  | NFloat (f : float).

(** A value as an operand of [+] next to a number; a [bool] counts as the
    [int] 0 or 1. *)
Definition as_number (v : value) : option number :=
  match v with
  | VInt z => Some (NInt z)
  | VBool b => Some (NInt (if b then 1 else 0))
  | VFloat f => Some (NFloat f)
  | _ => None
  end.

Definition number_value (n : number) : value :=
  match n with
  | NInt z => VInt z
  | NFloat f => VFloat f
  end.

(** The [float] nearest to an [int], ties to even, as Python converts the
    [int] operand of a mixed addition; an [int] beyond the range of
    binary64 is an OverflowError. *)
Definition float_of_int (z : Z) : M float :=
  let f := SF2Prim (binary_normalize prec emax z 0 false) in
  if is_infinity f then raise OverflowError else mret f.

(** [a + b] on numbers: exact on two [int]s, binary64 addition as soon as
    one operand is a [float]. *)
Definition add_numbers (a b : number) : M number :=
  match a, b with
  | NInt x, NInt y => mret (NInt (x + y))
  | NInt x, NFloat g => f ← float_of_int x; mret (NFloat (f + g))
  | NFloat f, NInt y => g ← float_of_int y; mret (NFloat (f + g))
  | NFloat f, NFloat g => mret (NFloat (f + g))
  end.

(** [total += num] where [total] is a number, as it is throughout
    [calculate_sum]: numbers have no in-place addition, so this is
    [total + num], a number again for a number and a TypeError for
    [None], a [str], a [list], a [dict] or an instance. *)
Definition iadd (total : number) (num : value) : M number :=
  match as_number num with
  | Some n => add_numbers total n
  | None => raise TypeError
  end.

(** [def calculate_sum(numbers)]; [numbers] is given by the elements the
    loop visits, in order. *)
Definition calculate_sum (numbers : list value) : M value :=
  let total := NInt 0 in
  total ← for_in (fun total num => iadd total num) total numbers;
  mret (number_value total).

(** The module body of sample.py.  The result is the module's namespace:
    the global variables it binds (functions and classes are no values of
    this model, so the names [DataProcessor] and [calculate_sum] are left
    out; the list literal of the last statement is given by its elements
    and not kept in the store). *)
Definition sample_py : M (gmap string value) :=
  CONFIGURATION ← alloc (ODict {[ "database_url" := VStr "postgresql://localhost:5432/test";
                                  "debug" := VBool true;
                                  "max_connections" := VInt 100 ]});
  processor ← DataProcessor.new;
  resolve processor "process_data";;
  result ← DataProcessor.process_data processor (VStr "test content");
  total ← calculate_sum [VInt 1; VInt 2; VInt 3; VInt 4; VInt 5];
  mret ({[ "CONFIGURATION" := CONFIGURATION;
           "processor" := processor;
           "result" := result;
           "total" := total ]} : gmap string value).

(** ** test_functions.py *)

(** [def search_target_function(): pass] *)
Definition search_target_function : M value :=
  mret VNone.

(** [def another_function(): search_target_function()] *)
Definition another_function : M value :=
  search_target_function;;
  mret VNone.

Module SampleClass.

(** [SampleClass()]: the class defines no [__init__]. *)
Definition new : M value :=
  alloc (OInstance "SampleClass" ∅).

(** [def method_one(self): pass] *)
Definition method_one (self : value) : M value :=
  mret VNone.

(** [def method_two(self): self.method_one()] *)
Definition method_two (self : value) : M value :=
  resolve self "method_one";;
  method_one self;;
  mret VNone.

End SampleClass.

(** ** Observations on a store *)

Definition deref (h : heap) (v : value) : option object :=
  match v with
  | VRef l => h !! l
  | _ => None
  end.

(** [r[key]] for a reference [r] to a dict. *)
Definition field (h : heap) (r : value) (key : string) : option value :=
  match deref h r with
  | Some (ODict d) => d !! key
  | _ => None
  end.

(** The elements of [self.data], when [self] is an instance whose [data]
    attribute is a list. *)
Definition data_of (h : heap) (self : value) : option (list value) :=
  match deref h self with
  | Some (OInstance _ attrs) =>
      match attrs !! "data" with
      | Some d =>
          match deref h d with
          | Some (OList xs) => Some xs
          | _ => None
          end
      | None => None
      end
  | _ => None
  end.

(** The dict [process_data] builds when [self.data] holds [n] records. *)
Definition record (n : nat) (input_data : value) : gmap string value :=
  {[ "id" := VInt (Z.of_nat n);
     "content" := input_data;
     "status" := VStr "processed" ]}.

(** Successive calls [process_data(x)] for [x] in [inputs] on one instance;
    the returned records in call order. *)
Fixpoint process_all (self : value) (inputs : list value) : M (list value) :=
  match inputs with
  | [] => mret []
  | x :: inputs' =>
      r ← DataProcessor.process_data self x;
      rs ← process_all self inputs';
      mret (r :: rs)
  end.

(** Every element of [xs] refers to a dict whose ['id'] is its index,
    counted from [k]. *)
Fixpoint ids_from (h : heap) (k : nat) (xs : list value) : bool :=
  match xs with
  | [] => true
  | r :: xs' =>
      match field h r "id" with
      | Some (VInt z) => (z =? Z.of_nat k) && ids_from h (S k) xs'
      | _ => false
      end
  end.

(** The ['id'] fields of the records [rs]. *)
Definition ids_of (h : heap) (rs : list value) : list (option value) :=
  (fun r => field h r "id") <$> rs.

(** The identifiers [k], [k+1], ..., [k+n-1] as Python values. *)
Definition id_range (k n : nat) : list (option value) :=
  (fun i => Some (VInt (Z.of_nat i))) <$> seq k n.

(** The invariant of a processor: [self.data] is a list and the ['id'] of
    each of its records is the record's index. *)
Definition invariant (h : heap) (self : value) : bool :=
  match data_of h self with
  | Some xs => ids_from h 0 xs
  | None => false
  end.

(** The ['id'] of the record that the call [process_data(x)] returns on a
    fresh processor after the calls for [inputs]. *)
Definition id_after (inputs : list value) (x : value) (h : heap) : option value :=
  match (self ← DataProcessor.new;
         process_all self inputs;;
         DataProcessor.process_data self x) h with
  | Ok (r, h') => field h' r "id"
  | Raise _ => None
  end.

(** The mathematical sum of a sequence of integers. *)
Definition sum_of (zs : list Z) : Z := foldr Z.add 0 zs.

(** The integers that a sequence of [int]s and [bool]s stands for; [None]
    when an element is neither. *)
Definition numbers_of (vs : list value) : option (list Z) :=
  mapM as_int vs.

(** No element is a [float]. *)
Definition no_float (vs : list value) : bool :=
  forallb (fun v => match v with VFloat _ => false | _ => true end) vs.

(** The rational number that a finite [float] is. *)
Definition float_Q (f : float) : option Q :=
  match Prim2SF f with
  | S754_zero _ => Some (inject_Z 0)
  | S754_finite s m e =>
      Some (Qmult (inject_Z (if s then Z.neg m else Z.pos m)) (Qpower (inject_Z 2) e))
  | _ => None
  end.

(** The rational number that a Python number is. *)
Definition number_Q (v : value) : option Q :=
  match as_number v with
  | Some (NInt z) => Some (inject_Z z)
  | Some (NFloat f) => float_Q f
  | None => None
  end.

(** The mathematical sum of a sequence of rationals. *)
Definition sum_Q (qs : list Q) : Q := foldr Qplus (inject_Z 0) qs.

(** A receiver for which the two files provide no [method_one]: a value
    that is no instance, a list, a dict, or an instance of [DataProcessor]
    without an attribute of that name. *)
Definition lacks_method_one (h : heap) (self : value) : bool :=
  match self with
  | VRef l =>
      match h !! l with
      | Some (OInstance cls attrs) =>
          match attrs !! "method_one" with
          | None => bool_decide (cls = "DataProcessor")
          | Some _ => false
          end
      | Some _ => true
      | None => false
      end
  | _ => true
  end.

(** A store with one processor that has handled one input. *)
Definition one_record : heap :=
  [OInstance "DataProcessor" {[ "data" := VRef 1 ]};
   OList [VRef 2];
   ODict {[ "id" := VInt 0; "content" := VStr "a"; "status" := VStr "processed" ]}].

(** The list object that [self.data] refers to. *)
Definition data_loc (h : heap) (self : value) : option loc :=
  match deref h self with
  | Some (OInstance _ attrs) =>
      match attrs !! "data" with
      | Some (VRef ld) =>
          match h !! ld with
          | Some (OList _) => Some ld
          | _ => None
          end
      | _ => None
      end
  | _ => None
  end.

(** [one_record] with a second processor that has handled nothing. *)
Definition two_processors : heap :=
  one_record ++ [OInstance "DataProcessor" {[ "data" := VRef 4 ]}; OList []].

(** ** Stepping the monad *)

Lemma bind_Ok {A B} (m : M A) (f : A -> M B) h a h' :
  m h = Ok (a, h') -> (m ≫= f) h = f a h'.
Proof. intros E. unfold mbind, M_bind. now rewrite E. Qed.

Lemma bind_Raise {A B} (m : M A) (f : A -> M B) h e :
  m h = Raise e -> (m ≫= f) h = Raise e.
Proof. intros E. unfold mbind, M_bind. now rewrite E. Qed.

(** Run the first computation of a bind whose outcome [t] establishes. *)
Tactic Notation "step" "by" tactic3(t) := erewrite bind_Ok; [| solve [t]].

(** ** Store lemmas *)

Lemma data_of_Some h self xs :
  data_of h self = Some xs ->
  exists l cls attrs ld,
    self = VRef l /\ h !! l = Some (OInstance cls attrs) /\
    attrs !! "data" = Some (VRef ld) /\ h !! ld = Some (OList xs).
Proof.
  unfold data_of, deref. intros E.
  destruct self as [| | | | |l]; try discriminate.
  destruct (h !! l) as [[|?|cls attrs]|] eqn:El; try discriminate.
  destruct (attrs !! "data") as [[| | | | |ld]|] eqn:Ed; try discriminate.
  destruct (h !! ld) as [[ys| |]|] eqn:Eld; try discriminate.
  exists l, cls, attrs, ld. repeat split; congruence.
Qed.

(** One call, spelled out on the store: the new dict is allocated at the
    end and the list object of [self.data] gets its reference appended. *)
Lemma process_data_step h l cls attrs ld xs x :
  h !! l = Some (OInstance cls attrs) ->
  attrs !! "data" = Some (VRef ld) ->
  h !! ld = Some (OList xs) ->
  DataProcessor.process_data (VRef l) x h =
    Ok (VRef (List.length h),
        <[ld := OList (xs ++ [VRef (List.length h)])]>
          (h ++ [ODict (record (List.length xs) x)])).
Proof.
  intros Hl Hd Hld.
  assert (Hl' : (h ++ [ODict (record (List.length xs) x)]) !! l = Some (OInstance cls attrs))
    by (rewrite lookup_app_l; [assumption | eapply lookup_lt_Some; eassumption]).
  assert (Hld' : (h ++ [ODict (record (List.length xs) x)]) !! ld = Some (OList xs))
    by (rewrite lookup_app_l; [assumption | eapply lookup_lt_Some; eassumption]).
  unfold DataProcessor.process_data.
  step by (unfold getattr; rewrite Hl, Hd; reflexivity).
  step by (unfold len; rewrite Hld; reflexivity).
  step by (unfold alloc; reflexivity).
  step by (unfold getattr; fold (record (List.length xs) x); rewrite Hl', Hd; reflexivity).
  step by (unfold append; rewrite Hld'; reflexivity).
  reflexivity.
Qed.

(** What one call does to the store, for any instance whose [data] is a
    list [xs]. *)
Lemma process_data_post h self xs x :
  data_of h self = Some xs ->
  exists ld h',
    h !! ld = Some (OList xs) /\
    DataProcessor.process_data self x h = Ok (VRef (List.length h), h') /\
    List.length h' = S (List.length h) /\
    h' !! ld = Some (OList (xs ++ [VRef (List.length h)])) /\
    h' !! List.length h = Some (ODict (record (List.length xs) x)) /\
    (forall l, (l < List.length h)%nat -> l <> ld -> h' !! l = h !! l) /\
    data_of h' self = Some (xs ++ [VRef (List.length h)]).
Proof.
  intros (l & cls & attrs & ld & -> & Hl & Hd & Hld)%data_of_Some.
  pose proof (lookup_lt_Some _ _ _ Hl) as Ll.
  pose proof (lookup_lt_Some _ _ _ Hld) as Lld.
  assert (Hne : l <> ld) by (intros ->; congruence).
  set (h' := <[ld := OList (xs ++ [VRef (List.length h)])]>
               (h ++ [ODict (record (List.length xs) x)])).
  assert (Hframe : forall k, (k < List.length h)%nat -> k <> ld -> h' !! k = h !! k).
  { intros k Lk Hk. unfold h'.
    rewrite list_lookup_insert_ne by congruence. now apply lookup_app_l. }
  assert (Hnew : h' !! ld = Some (OList (xs ++ [VRef (List.length h)]))).
  { unfold h'. apply list_lookup_insert_eq. rewrite length_app. simpl. lia. }
  exists ld, h'. repeat split; try assumption.
  - now apply process_data_step with cls attrs.
  - unfold h'. rewrite length_insert, length_app. simpl. lia.
  - unfold h'. rewrite list_lookup_insert_ne by lia.
    now apply list_lookup_middle.
  - unfold data_of, deref. rewrite Hframe by assumption.
    rewrite Hl, Hd. now rewrite Hnew.
Qed.

Lemma lookup_snoc2_fst {A} (h : list A) (a b : A) :
  (h ++ [a; b]) !! List.length h = Some a.
Proof. apply list_lookup_middle. reflexivity. Qed.

Lemma lookup_snoc2_snd {A} (h : list A) (a b : A) :
  (h ++ [a; b]) !! S (List.length h) = Some b.
Proof.
  change (h ++ [a; b]) with (h ++ [a] ++ [b]). rewrite app_assoc.
  apply list_lookup_middle. rewrite length_app. simpl. lia.
Qed.

(** [DataProcessor()] on the store: the instance, then its empty list. *)
Lemma new_spec h :
  DataProcessor.new h =
    Ok (VRef (List.length h),
        h ++ [OInstance "DataProcessor" {[ "data" := VRef (S (List.length h)) ]};
              OList []]).
Proof.
  unfold DataProcessor.new, DataProcessor.__init__.
  step by (unfold alloc; reflexivity).
  erewrite bind_Ok.
  2:{ step by (unfold alloc; reflexivity).
      erewrite bind_Ok; [reflexivity|].
      unfold setattr. rewrite lookup_app_l by (rewrite length_app; simpl; lia).
      rewrite list_lookup_middle by reflexivity. reflexivity. }
  unfold mret, M_ret. do 2 f_equal.
  rewrite insert_app_l by (rewrite length_app; simpl; lia).
  rewrite length_app, Nat.add_1_r. simpl.
  rewrite <- (Nat.add_0_r (List.length h)) at 1.
  rewrite insert_app_r. simpl. now rewrite <- app_assoc.
Qed.

Lemma new_data_of h :
  data_of (h ++ [OInstance "DataProcessor" {[ "data" := VRef (S (List.length h)) ]};
                 OList []]) (VRef (List.length h)) = Some [].
Proof.
  unfold data_of, deref. rewrite lookup_snoc2_fst.
  rewrite lookup_singleton_eq. now rewrite lookup_snoc2_snd.
Qed.

(** A call leaves every dict that already exists as it is. *)
Lemma process_data_keeps_dicts h self xs x r h' :
  data_of h self = Some xs ->
  DataProcessor.process_data self x h = Ok (r, h') ->
  forall l d, h !! l = Some (ODict d) -> h' !! l = Some (ODict d).
Proof.
  intros Hdata Hrun l d Hl.
  destruct (process_data_post h self xs x Hdata)
    as (ld & h1 & Hld & Hrun1 & _ & _ & _ & Hframe & _).
  rewrite Hrun in Hrun1. injection Hrun1 as _ ->.
  rewrite Hframe; [assumption | eapply lookup_lt_Some; eassumption |].
  intros ->. congruence.
Qed.

(** What a run of calls does to the store. *)
Lemma process_all_post inputs : forall h self xs,
  data_of h self = Some xs ->
  exists h',
    process_all self inputs h =
      Ok (VRef <$> seq (List.length h) (List.length inputs), h') /\
    List.length h' = (List.length h + List.length inputs)%nat /\
    data_of h' self =
      Some (xs ++ (VRef <$> seq (List.length h) (List.length inputs))) /\
    (forall i x, inputs !! i = Some x ->
       h' !! (List.length h + i)%nat =
         Some (ODict (record (List.length xs + i) x))) /\
    (forall l d, h !! l = Some (ODict d) -> h' !! l = Some (ODict d)).
Proof.
  induction inputs as [|x inputs IH]; intros h self xs Hdata.
  - exists h. simpl. rewrite app_nil_r, Nat.add_0_r.
    repeat split; try assumption; [intros i x Hi; discriminate | auto].
  - destruct (process_data_post h self xs x Hdata)
      as (ld & h1 & Hld & Hrun1 & Hlen1 & _ & Hnew & _ & Hdata1).
    destruct (IH h1 self _ Hdata1) as (h2 & Hrun2 & Hlen2 & Hdata2 & Hrec2 & Hkeep2).
    exists h2. rewrite Hlen1 in *. repeat split.
    + simpl. step by eassumption.
      step by eassumption. reflexivity.
    + rewrite Hlen2. simpl. lia.
    + rewrite Hdata2, <- app_assoc. reflexivity.
    + intros [|i] y Hi; simpl in Hi.
      * injection Hi as <-. rewrite !Nat.add_0_r. now apply Hkeep2.
      * rewrite <- !Nat.add_succ_comm. specialize (Hrec2 i y Hi).
        rewrite length_app in Hrec2. simpl in Hrec2.
        now rewrite Nat.add_1_r in Hrec2.
    + intros l d Hl. apply Hkeep2.
      exact (process_data_keeps_dicts h self xs x _ h1 Hdata Hrun1 l d Hl).
Qed.

Lemma record_id n x : record n x !! "id" = Some (VInt (Z.of_nat n)).
Proof. reflexivity. Qed.

Lemma record_content n x : record n x !! "content" = Some x.
Proof. reflexivity. Qed.

Lemma record_status n x : record n x !! "status" = Some (VStr "processed").
Proof. reflexivity. Qed.

(** The identifiers of dicts laid out in a row of the store. *)
Lemma ids_of_row h' a k inputs :
  (forall i x, inputs !! i = Some x ->
     h' !! (a + i)%nat = Some (ODict (record (k + i) x))) ->
  ids_of h' (VRef <$> seq a (List.length inputs)) = id_range k (List.length inputs).
Proof.
  intros Hrow. unfold ids_of, id_range. apply list_eq. intros i.
  rewrite !list_lookup_fmap.
  destruct (decide (i < List.length inputs)%nat) as [Hi|Hi].
  - rewrite !lookup_seq_lt by assumption. simpl.
    destruct (lookup_lt_is_Some_2 inputs i Hi) as [x Hx].
    unfold field, deref. rewrite (Hrow i x Hx). now rewrite record_id.
  - rewrite !lookup_seq_ge by lia. reflexivity.
Qed.

(** ** The processor *)

Example sample_run :
  (self ← DataProcessor.new;
   DataProcessor.process_data self (VStr "test content")) [] =
    Ok (VRef 2,
        [OInstance "DataProcessor" {[ "data" := VRef 1 ]};
         OList [VRef 2];
         ODict {[ "id" := VInt 0;
                  "content" := VStr "test content";
                  "status" := VStr "processed" ]}]).
Proof. vm_compute. reflexivity. Qed.


(** C1.  N successive calls of [process_data] on a freshly constructed
    [DataProcessor] return records whose ['id'] fields are 0, 1, ..., N-1 in
    call order; and a call on any processor assigns the length that
    [self.data] has at the moment of the call. *)
Theorem process_data_ids_in_call_order :
  (forall (h : heap) (inputs : list value),
     exists self h0 rs h',
       DataProcessor.new h = Ok (self, h0) /\
       process_all self inputs h0 = Ok (rs, h') /\
       List.length rs = List.length inputs /\
       ids_of h' rs = id_range 0 (List.length inputs))
  /\
  (forall (h : heap) (self : value) (xs : list value) (x : value),
     data_of h self = Some xs ->
     exists r h',
       DataProcessor.process_data self x h = Ok (r, h') /\
       field h' r "id" = Some (VInt (Z.of_nat (List.length xs)))).
Proof.
  split.
  - intros h inputs.
    destruct (process_all_post inputs _ _ _ (new_data_of h))
      as (h' & Hrun & _ & _ & Hrow & _).
    eexists _, _, _, h'. split; [apply new_spec|]. split; [exact Hrun|].
    split; [now rewrite length_fmap, length_seq|].
    now apply ids_of_row.
  - intros h self xs x Hdata.
    destruct (process_data_post h self xs x Hdata)
      as (ld & h' & _ & Hrun & _ & _ & Hnew & _).
    exists (VRef (List.length h)), h'. split; [exact Hrun|].
    unfold field, deref. now rewrite Hnew.
Qed.

Lemma process_data_ids_in_call_order_witness :
  data_of one_record (VRef 0) = Some [VRef 2] /\
  exists r h',
    DataProcessor.process_data (VRef 0) (VInt 7) one_record = Ok (r, h') /\
    field h' r "id" = Some (VInt 1).
Proof.
  split; [reflexivity|].
  apply (proj2 process_data_ids_in_call_order one_record (VRef 0) [VRef 2] (VInt 7)).
  reflexivity.
Defined.

(** C2.  On any processor and for any input, the returned record has
    ['status'] equal to ["processed"] and ['content'] equal to the input;
    the first call on a fresh processor with ["test content"] returns
    [{'id': 0, 'content': "test content", 'status': "processed"}]. *)
Theorem process_data_record_fields :
  (forall (h : heap) (self : value) (xs : list value) (x : value),
     data_of h self = Some xs ->
     exists r h',
       DataProcessor.process_data self x h = Ok (r, h') /\
       field h' r "status" = Some (VStr "processed") /\
       field h' r "content" = Some x)
  /\
  (forall h : heap,
     exists self h0 r h',
       DataProcessor.new h = Ok (self, h0) /\
       DataProcessor.process_data self (VStr "test content") h0 = Ok (r, h') /\
       deref h' r =
         Some (ODict {[ "id" := VInt 0;
                        "content" := VStr "test content";
                        "status" := VStr "processed" ]})).
Proof.
  split.
  - intros h self xs x Hdata.
    destruct (process_data_post h self xs x Hdata)
      as (ld & h' & _ & Hrun & _ & _ & Hnew & _).
    exists (VRef (List.length h)), h'. split; [exact Hrun|].
    unfold field, deref. rewrite Hnew.
    split; [apply record_status | apply record_content].
  - intros h.
    destruct (process_data_post _ _ _ (VStr "test content") (new_data_of h))
      as (ld & h' & _ & Hrun & _ & _ & Hnew & _).
    eexists _, _, _, h'. split; [apply new_spec|]. split; [exact Hrun|].
    exact Hnew.
Qed.

Lemma process_data_record_fields_witness :
  data_of one_record (VRef 0) = Some [VRef 2] /\
  exists r h',
    DataProcessor.process_data (VRef 0) (VBool true) one_record = Ok (r, h') /\
    field h' r "status" = Some (VStr "processed") /\
    field h' r "content" = Some (VBool true).
Proof.
  split; [reflexivity|].
  apply (proj1 process_data_record_fields one_record (VRef 0) [VRef 2] (VBool true)).
  reflexivity.
Defined.

(** A field read survives every change of the store that keeps dicts. *)
Lemma field_kept (h h' : heap) r key v :
  (forall l d, h !! l = Some (ODict d) -> h' !! l = Some (ODict d)) ->
  field h r key = Some v -> field h' r key = Some v.
Proof.
  intros Hkeep. unfold field, deref.
  destruct r as [| | | | |l]; try discriminate.
  destruct (h !! l) as [[|d|]|] eqn:El; try discriminate.
  now rewrite (Hkeep l d El).
Qed.

(** [ids_from] read index by index. *)
Lemma ids_from_lookup h xs : forall k,
  ids_from h k xs = true <->
  (forall i r, xs !! i = Some r ->
     field h r "id" = Some (VInt (Z.of_nat (k + i)))).
Proof.
  induction xs as [|r xs IH]; intros k; simpl.
  - split; [intros _ i r Hi; discriminate | reflexivity].
  - split.
    + intros Hall [|i] r' Hi; simpl in Hi.
      * injection Hi as <-.
        destruct (field h r "id") as [[| |z| | |]|]; try discriminate.
        apply andb_prop in Hall as [->%Z.eqb_eq _]. now rewrite Nat.add_0_r.
      * destruct (field h r "id") as [[| |z| | |]|]; try discriminate.
        apply andb_prop in Hall as [_ Hall].
        rewrite <- Nat.add_succ_comm. now apply IH.
    + intros Hall. rewrite (Hall 0%nat r eq_refl), Nat.add_0_r, Z.eqb_refl. simpl.
      apply IH. intros i r' Hi. rewrite Nat.add_succ_comm. now apply (Hall (S i)).
Qed.

(** C4.  [self.data] starts empty; a call of [process_data] keeps the
    invariant that every stored record's ['id'] is its index and puts the
    returned record last; so after any run of calls on a fresh processor
    [self.data] holds the returned records in call order, each with its
    index as ['id']. *)
Theorem ids_are_insertion_indices :
  (forall h : heap,
     exists self h0,
       DataProcessor.new h = Ok (self, h0) /\
       data_of h0 self = Some [] /\ invariant h0 self = true)
  /\
  (forall (h : heap) (self : value) (xs : list value) (x : value),
     data_of h self = Some xs ->
     invariant h self = true ->
     exists r h',
       DataProcessor.process_data self x h = Ok (r, h') /\
       data_of h' self = Some (xs ++ [r]) /\
       invariant h' self = true)
  /\
  (forall (h : heap) (inputs : list value),
     exists self h0 rs h',
       DataProcessor.new h = Ok (self, h0) /\
       process_all self inputs h0 = Ok (rs, h') /\
       data_of h' self = Some rs /\
       forall i r, rs !! i = Some r ->
         field h' r "id" = Some (VInt (Z.of_nat i))).
Proof.
  split; [|split].
  - intros h. eexists _, _. split; [apply new_spec|].
    split; [apply new_data_of|]. unfold invariant. now rewrite new_data_of.
  - intros h self xs x Hdata Hinv.
    unfold invariant in Hinv. rewrite Hdata in Hinv.
    destruct (process_data_post h self xs x Hdata)
      as (ld & h' & Hld & Hrun & _ & _ & Hnew & Hframe & Hdata').
    exists (VRef (List.length h)), h'. split; [exact Hrun|].
    split; [exact Hdata'|].
    unfold invariant. rewrite Hdata'. apply ids_from_lookup. intros i r Hi.
    apply lookup_app_Some in Hi as [Hi|[Hge Hi]].
    + eapply field_kept;
        [exact (process_data_keeps_dicts h self xs x _ h' Hdata Hrun)|].
      now apply (proj1 (ids_from_lookup h xs 0) Hinv).
    + destruct (i - List.length xs)%nat as [|j] eqn:Ej; [|discriminate].
      injection Hi as <-. unfold field, deref. rewrite Hnew, record_id.
      do 3 f_equal. simpl. lia.
  - intros h inputs.
    destruct (process_all_post inputs _ _ _ (new_data_of h))
      as (h' & Hrun & _ & Hdata' & Hrow & _).
    eexists _, _, _, h'. split; [apply new_spec|]. split; [exact Hrun|].
    split; [exact Hdata'|].
    intros i r Hi. apply (f_equal (fmap (fun r => field h' r "id"))) in Hi.
    pose proof (ids_of_row h' _ 0 inputs Hrow) as Hids.
    unfold ids_of in Hids. rewrite <- list_lookup_fmap, Hids in Hi.
    unfold id_range in Hi. rewrite list_lookup_fmap in Hi. simpl in Hi.
    destruct (seq 0 (List.length inputs) !! i) as [j|] eqn:Ej; [|discriminate].
    apply lookup_seq in Ej as [-> _]. simpl in Hi. now injection Hi.
Qed.

Lemma ids_are_insertion_indices_witness :
  data_of one_record (VRef 0) = Some [VRef 2] /\
  invariant one_record (VRef 0) = true /\
  exists r h',
    DataProcessor.process_data (VRef 0) VNone one_record = Ok (r, h') /\
    data_of h' (VRef 0) = Some ([VRef 2] ++ [r]) /\
    invariant h' (VRef 0) = true.
Proof.
  split; [reflexivity|]. split; [reflexivity|].
  apply (proj1 (proj2 ids_are_insertion_indices) one_record (VRef 0) [VRef 2] VNone);
    reflexivity.
Defined.

(** C5.  A call of [process_data] changes the store in two places only: it
    allocates the new record at the end, and it appends the reference to
    that record to the list of [self.data].  All other objects, among them
    every record created before, stay as they are; a run of calls keeps
    every record that existed before it. *)
Theorem process_data_frame :
  (forall (h : heap) (self : value) (xs : list value) (x : value),
     data_of h self = Some xs ->
     exists ld r h',
       h !! ld = Some (OList xs) /\
       DataProcessor.process_data self x h = Ok (VRef r, h') /\
       r = List.length h /\
       List.length h' = S (List.length h) /\
       h' !! ld = Some (OList (xs ++ [VRef r])) /\
       data_of h' self = Some (xs ++ [VRef r]) /\
       (forall l, (l < List.length h)%nat -> l <> ld -> h' !! l = h !! l) /\
       (forall l d, h !! l = Some (ODict d) -> h' !! l = Some (ODict d)))
  /\
  (forall (h : heap) (self : value) (xs inputs : list value),
     data_of h self = Some xs ->
     exists rs h',
       process_all self inputs h = Ok (rs, h') /\
       data_of h' self = Some (xs ++ rs) /\
       List.length rs = List.length inputs /\
       (forall l d, h !! l = Some (ODict d) -> h' !! l = Some (ODict d))).
Proof.
  split.
  - intros h self xs x Hdata.
    destruct (process_data_post h self xs x Hdata)
      as (ld & h' & Hld & Hrun & Hlen & Hnew & _ & Hframe & Hdata').
    exists ld, (List.length h), h'. repeat split; try assumption.
    exact (process_data_keeps_dicts h self xs x _ h' Hdata Hrun).
  - intros h self xs inputs Hdata.
    destruct (process_all_post inputs h self xs Hdata)
      as (h' & Hrun & _ & Hdata' & _ & Hkeep).
    eexists _, h'. split; [exact Hrun|]. split; [exact Hdata'|].
    split; [now rewrite length_fmap, length_seq | exact Hkeep].
Qed.

Lemma process_data_frame_witness :
  data_of one_record (VRef 0) = Some [VRef 2] /\
  exists ld r h',
    one_record !! ld = Some (OList [VRef 2]) /\
    DataProcessor.process_data (VRef 0) (VStr "b") one_record = Ok (VRef r, h') /\
    r = List.length one_record /\
    List.length h' = S (List.length one_record) /\
    h' !! ld = Some (OList ([VRef 2] ++ [VRef r])) /\
    data_of h' (VRef 0) = Some ([VRef 2] ++ [VRef r]) /\
    (forall l, (l < List.length one_record)%nat -> l <> ld -> h' !! l = one_record !! l) /\
    (forall l d, one_record !! l = Some (ODict d) -> h' !! l = Some (ODict d)).
Proof.
  split; [reflexivity|].
  apply (proj1 process_data_frame one_record (VRef 0) [VRef 2] (VStr "b")).
  reflexivity.
Defined.

(** Outside the processors the call does fail: on a receiver that is no
    instance, and on an instance whose [data] was rebound to [None]. *)
Example process_data_no_instance :
  DataProcessor.process_data (VInt 5) VNone [] = Raise AttributeError.
Proof. reflexivity. Qed.

Example process_data_no_list :
  DataProcessor.process_data (VRef 0) VNone
    [OInstance "DataProcessor" {[ "data" := VNone ]}] = Raise TypeError.
Proof. reflexivity. Qed.

(** C6.  [process_data] has no error case: on every processor and for every
    input the call raises nothing and returns a reference to the record it
    built, with the three fields, which it has appended to [self.data]; in
    particular every call of a run on a fresh processor succeeds so. *)
Theorem process_data_total :
  (forall (h : heap) (self : value) (xs : list value) (x : value),
     data_of h self = Some xs ->
     (forall e, DataProcessor.process_data self x h <> Raise e) /\
     exists r h',
       DataProcessor.process_data self x h = Ok (r, h') /\
       deref h' r =
         Some (ODict {[ "id" := VInt (Z.of_nat (List.length xs));
                        "content" := x;
                        "status" := VStr "processed" ]}) /\
       data_of h' self = Some (xs ++ [r]))
  /\
  (forall (h : heap) (inputs : list value) (x : value),
     exists self h0 rs h1 r h2,
       DataProcessor.new h = Ok (self, h0) /\
       process_all self inputs h0 = Ok (rs, h1) /\
       List.length rs = List.length inputs /\
       DataProcessor.process_data self x h1 = Ok (r, h2) /\
       deref h2 r =
         Some (ODict {[ "id" := VInt (Z.of_nat (List.length inputs));
                        "content" := x;
                        "status" := VStr "processed" ]}) /\
       data_of h2 self = Some (rs ++ [r])).
Proof.
  assert (Hone : forall h self xs x,
            data_of h self = Some xs ->
            exists r h',
              DataProcessor.process_data self x h = Ok (r, h') /\
              deref h' r = Some (ODict (record (List.length xs) x)) /\
              data_of h' self = Some (xs ++ [r])).
  { intros h self xs x Hdata.
    destruct (process_data_post h self xs x Hdata)
      as (ld & h' & _ & Hrun & _ & _ & Hnew & _ & Hdata').
    now exists (VRef (List.length h)), h'. }
  split.
  - intros h self xs x Hdata.
    destruct (Hone h self xs x Hdata) as (r & h' & Hrun & Hr & Hdata').
    split; [intros e He; congruence|]. now exists r, h'.
  - intros h inputs x.
    destruct (process_all_post inputs _ _ _ (new_data_of h))
      as (h1 & Hrun & _ & Hdata1 & _).
    destruct (Hone h1 _ _ x Hdata1) as (r & h2 & Hcall & Hr & Hdata2).
    simpl in Hr, Hdata2. rewrite length_fmap, length_seq in Hr.
    eexists _, _, _, h1, r, h2. split; [apply new_spec|].
    split; [exact Hrun|]. split; [now rewrite length_fmap, length_seq|].
    split; [exact Hcall|]. split; [exact Hr | exact Hdata2].
Qed.

Lemma process_data_total_witness :
  data_of one_record (VRef 0) = Some [VRef 2] /\
  (forall e, DataProcessor.process_data (VRef 0) (VRef 1) one_record <> Raise e) /\
  exists r h',
    DataProcessor.process_data (VRef 0) (VRef 1) one_record = Ok (r, h') /\
    deref h' r =
      Some (ODict {[ "id" := VInt 1; "content" := VRef 1;
                     "status" := VStr "processed" ]}) /\
    data_of h' (VRef 0) = Some ([VRef 2] ++ [r]).
Proof.
  split; [reflexivity|].
  apply (proj1 process_data_total one_record (VRef 0) [VRef 2] (VRef 1)).
  reflexivity.
Defined.

(** The identifier a fresh processor hands out after [inputs]. *)
Lemma id_after_length inputs x h :
  id_after inputs x h = Some (VInt (Z.of_nat (List.length inputs))).
Proof.
  destruct (process_all_post inputs _ _ _ (new_data_of h))
    as (h1 & Hrun & _ & Hdata1 & _).
  destruct (process_data_post h1 _ _ x Hdata1)
    as (ld & h2 & _ & Hcall & _ & _ & Hnew & _).
  unfold id_after.
  step by apply new_spec.
  step by exact Hrun.
  rewrite Hcall. unfold field, deref. rewrite Hnew, record_id.
  simpl. now rewrite length_fmap, length_seq.
Qed.

(** C7.  The identifier that a call returns is fixed by the number of calls
    made before on that processor: two runs with as many earlier inputs,
    whatever their values, the values of the new inputs and the stores they
    start from, return the same identifier; the second call returns 1
    whatever the first input was. *)
Theorem id_independent_of_inputs
    (h1 h2 : heap) (inputs1 inputs2 : list value) (x1 x2 : value)
    (Hcalls : List.length inputs1 = List.length inputs2) :
  id_after inputs1 x1 h1 = id_after inputs2 x2 h2 /\
  id_after inputs1 x1 h1 = Some (VInt (Z.of_nat (List.length inputs1))) /\
  (forall a b h, id_after [a] b h = Some (VInt 1)).
Proof.
  rewrite !id_after_length, Hcalls. repeat split.
  intros a b h. now rewrite id_after_length.
Qed.

Lemma id_independent_of_inputs_witness :
  id_after [VStr "first"] (VInt 5) [] = id_after [VNone] (VStr "x") one_record /\
  id_after [VStr "first"] (VInt 5) [] = Some (VInt 1) /\
  (forall a b h, id_after [a] b h = Some (VInt 1)).
Proof.
  apply (id_independent_of_inputs [] one_record [VStr "first"] [VNone]
           (VInt 5) (VStr "x")).
  reflexivity.
Defined.

(** ** The summation helper *)

Lemma as_int_number v z : as_int v = Some z -> as_number v = Some (NInt z).
Proof. destruct v; simpl; congruence. Qed.

(** The loop of [calculate_sum] over integers, from any running total. *)
Lemma for_in_iadd_ints zs : forall total h,
  for_in (fun total num => iadd total num) (NInt total) (VInt <$> zs) h =
    Ok (NInt (total + sum_of zs), h).
Proof.
  induction zs as [|z zs IH]; intros total h; simpl.
  - unfold mret, M_ret. now rewrite Z.add_0_r.
  - step by reflexivity. rewrite IH.
    unfold sum_of. simpl. now rewrite Z.add_assoc.
Qed.

Lemma calculate_sum_ints zs h :
  calculate_sum (VInt <$> zs) h = Ok (VInt (sum_of zs), h).
Proof.
  unfold calculate_sum. step by apply for_in_iadd_ints. reflexivity.
Qed.

Lemma sum_of_app xs ys : sum_of (xs ++ ys) = sum_of xs + sum_of ys.
Proof.
  unfold sum_of. induction xs as [|x xs IH]; simpl; [reflexivity|].
  rewrite IH. apply Z.add_assoc.
Qed.

Lemma fold_left_add zs : forall a, fold_left Z.add zs a = a + sum_of zs.
Proof.
  unfold sum_of. induction zs as [|z zs IH]; intros a; simpl.
  - now rewrite Z.add_0_r.
  - rewrite IH. now rewrite Z.add_assoc.
Qed.

(** The loop stops with a TypeError at the first element that is no
    number. *)
Lemma calculate_sum_not_a_number zs v rest h :
  as_number v = None ->
  calculate_sum ((VInt <$> zs) ++ v :: rest) h = Raise TypeError.
Proof.
  intros Hv. unfold calculate_sum. apply bind_Raise.
  generalize 0. induction zs as [|z zs IH]; intros total; simpl.
  - apply bind_Raise. unfold iadd. now rewrite Hv.
  - step by reflexivity. apply IH.
Qed.

(** Integers in general: a [bool] adds as 0 or 1 and the result is an
    [int]. *)
Lemma for_in_iadd_numbers vs zs :
  numbers_of vs = Some zs ->
  forall total h,
    for_in (fun total num => iadd total num) (NInt total) vs h =
      Ok (NInt (total + sum_of zs), h).
Proof.
  intros Hnum%mapM_Some.
  induction Hnum as [|v z vs zs Hv _ IH]; intros total h; simpl.
  - unfold mret, M_ret. now rewrite Z.add_0_r.
  - step by (unfold iadd; rewrite (as_int_number v z Hv); reflexivity).
    rewrite IH. unfold sum_of. simpl. now rewrite Z.add_assoc.
Qed.

Lemma calculate_sum_numbers vs zs h :
  numbers_of vs = Some zs ->
  calculate_sum vs h = Ok (VInt (sum_of zs), h).
Proof.
  intros Hnum. unfold calculate_sum.
  step by (apply (for_in_iadd_numbers vs zs Hnum)). reflexivity.
Qed.

Lemma numbers_of_ints zs : numbers_of (VInt <$> zs) = Some zs.
Proof. apply mapM_fmap_Some. reflexivity. Qed.

Lemma numbers_of_app vs ws xs ys :
  numbers_of vs = Some xs -> numbers_of ws = Some ys ->
  numbers_of (vs ++ ws) = Some (xs ++ ys).
Proof.
  unfold numbers_of. rewrite !mapM_Some. apply Forall2_app.
Qed.

(** The loop over floats, from a [float] running total: binary64 additions
    from left to right. *)
Lemma for_in_iadd_floats fs : forall f h,
  for_in (fun total num => iadd total num) (NFloat f) (VFloat <$> fs) h =
    Ok (NFloat (fold_left PrimFloat.add fs f), h).
Proof.
  induction fs as [|g fs IH]; intros f h; simpl; [reflexivity|].
  step by reflexivity. apply IH.
Qed.

Lemma calculate_sum_floats f fs h :
  calculate_sum (VFloat <$> f :: fs) h =
    Ok (VFloat (fold_left PrimFloat.add fs (0 + f)%float), h).
Proof.
  unfold calculate_sum. simpl.
  erewrite bind_Ok; [|step by reflexivity; apply for_in_iadd_floats].
  reflexivity.
Qed.

Example calculate_sum_bools h :
  calculate_sum [VBool true; VInt 2; VBool false] h = Ok (VInt 3, h).
Proof. reflexivity. Qed.

Example calculate_sum_str h :
  calculate_sum [VInt 1; VStr "2"; VInt 3] h = Raise TypeError.
Proof. reflexivity. Qed.

Example calculate_sum_mixed h :
  calculate_sum [VInt 1; VFloat 2.5] h = Ok (VFloat 3.5, h).
Proof. reflexivity. Qed.

Example calculate_sum_overflow h :
  calculate_sum [VInt (2 ^ 1024); VFloat 1.5] h = Raise OverflowError.
Proof. vm_compute. reflexivity. Qed.

(** C3, as amended.  For every sequence of integers ([int]s, and [bool]s
    counted as 0 and 1) [calculate_sum] returns the mathematical sum of its
    elements, accumulated from 0 over the elements in order (a left fold),
    and leaves the store alone; on a sequence of floats it returns the
    binary64 additions from left to right, rounded one by one; the empty
    sequence gives 0 and [1, 2, 3, 4, 5] gives 15. *)
Theorem calculate_sum_is_sum :
  (forall (vs : list value) (zs : list Z) (h : heap),
     numbers_of vs = Some zs ->
     calculate_sum vs h = Ok (VInt (sum_of zs), h) /\
     calculate_sum vs h = Ok (VInt (fold_left Z.add zs 0), h)) /\
  (forall (zs : list Z) (h : heap),
     calculate_sum (VInt <$> zs) h = Ok (VInt (sum_of zs), h)) /\
  (forall (f : float) (fs : list float) (h : heap),
     calculate_sum (VFloat <$> f :: fs) h =
       Ok (VFloat (fold_left PrimFloat.add fs (0 + f)%float), h)) /\
  (forall h : heap, calculate_sum [] h = Ok (VInt 0, h)) /\
  (forall h : heap,
     calculate_sum [VInt 1; VInt 2; VInt 3; VInt 4; VInt 5] h = Ok (VInt 15, h)).
Proof.
  split; [|split; [|split; [|split]]].
  - intros vs zs h Hnum. rewrite fold_left_add, Z.add_0_l.
    split; now apply calculate_sum_numbers.
  - intros zs h. apply calculate_sum_ints.
  - intros f fs h. apply calculate_sum_floats.
  - intros h. apply (calculate_sum_ints []).
  - intros h. apply (calculate_sum_ints [1; 2; 3; 4; 5]).
Qed.

Lemma calculate_sum_is_sum_witness :
  numbers_of [VInt 4; VBool true; VInt (-2)] = Some [4; 1; -2] /\
  calculate_sum [VInt 4; VBool true; VInt (-2)] one_record = Ok (VInt 3, one_record).
Proof.
  split; [reflexivity|].
  apply (proj1 (proj1 calculate_sum_is_sum [VInt 4; VBool true; VInt (-2)] [4; 1; -2]
                  one_record eq_refl)).
Defined.

(** C3 as the claim states it, for every sequence of numbers, fails on
    floats: [calculate_sum([1e16, 1.0])] is [1e16], and the sum of the two
    elements is 10000000000000001. *)
Lemma calculate_sum_float_not_the_sum :
  exists qs q,
    mapM number_Q [VFloat 1e16; VFloat 1] = Some qs /\
    calculate_sum [VFloat 1e16; VFloat 1] [] = Ok (VFloat 1e16, []) /\
    number_Q (VFloat 1e16) = Some q /\
    (q == inject_Z 10000000000000000)%Q /\
    (sum_Q qs == inject_Z 10000000000000001)%Q /\
    ~ (q == sum_Q qs)%Q.
Proof.
  eexists _, _. split; [vm_compute; reflexivity|].
  split; [vm_compute; reflexivity|].
  split; [vm_compute; reflexivity|].
  split; [reflexivity|]. split; [reflexivity|].
  intros E. vm_compute in E. discriminate E.
Qed.

(** C9, as amended.  [calculate_sum] maps concatenation to addition on
    integers: for sequences [vs] and [ws] of [int]s and [bool]s (counted as
    0 and 1), and so for sequences of [int]s, the sum of [vs ++ ws] is the
    sum of [vs] plus the sum of [ws]; a sequence of one [int] sums to that
    [int] and the empty sequence to 0. *)
Theorem calculate_sum_app :
  (forall (vs ws : list value) (h : heap),
     is_Some (numbers_of vs) -> is_Some (numbers_of ws) ->
     exists a b,
       calculate_sum vs h = Ok (VInt a, h) /\
       calculate_sum ws h = Ok (VInt b, h) /\
       calculate_sum (vs ++ ws) h = Ok (VInt (a + b), h)) /\
  (forall (xs ys : list Z) (h : heap),
     exists a b,
       calculate_sum (VInt <$> xs) h = Ok (VInt a, h) /\
       calculate_sum (VInt <$> ys) h = Ok (VInt b, h) /\
       calculate_sum (VInt <$> (xs ++ ys)) h = Ok (VInt (a + b), h)) /\
  (forall (x : Z) (h : heap), calculate_sum [VInt x] h = Ok (VInt x, h)) /\
  (forall h : heap, calculate_sum [] h = Ok (VInt 0, h)).
Proof.
  split; [|split; [|split]].
  - intros vs ws h [xs Hxs] [ys Hys]. exists (sum_of xs), (sum_of ys).
    rewrite (calculate_sum_numbers _ _ _ Hxs), (calculate_sum_numbers _ _ _ Hys).
    rewrite (calculate_sum_numbers _ _ _ (numbers_of_app _ _ _ _ Hxs Hys)).
    now rewrite sum_of_app.
  - intros xs ys h. exists (sum_of xs), (sum_of ys).
    rewrite !calculate_sum_ints. now rewrite sum_of_app.
  - intros x h. change [VInt x] with (VInt <$> [x]).
    rewrite calculate_sum_ints. unfold sum_of. simpl. now rewrite Z.add_0_r.
  - intros h. apply (calculate_sum_ints []).
Qed.

Lemma calculate_sum_app_witness :
  is_Some (numbers_of [VBool true; VInt 2]) /\
  is_Some (numbers_of [VInt 3]) /\
  exists a b,
    calculate_sum [VBool true; VInt 2] [] = Ok (VInt a, []) /\
    calculate_sum [VInt 3] [] = Ok (VInt b, []) /\
    calculate_sum ([VBool true; VInt 2] ++ [VInt 3]) [] = Ok (VInt (a + b), []).
Proof.
  assert (H1 : is_Some (numbers_of [VBool true; VInt 2])) by (eexists; reflexivity).
  assert (H2 : is_Some (numbers_of [VInt 3])) by (eexists; reflexivity).
  split; [exact H1|]. split; [exact H2|].
  exact (proj1 calculate_sum_app [VBool true; VInt 2] [VInt 3] [] H1 H2).
Defined.

(** C9 as the claim states it, for all sequences of numbers, fails on
    floats: [calculate_sum([1e16] + [1.0, 1.0])] is [1e16], while
    [calculate_sum([1e16]) + calculate_sum([1.0, 1.0])] is [1e16 + 2.0],
    which is 10000000000000002. *)
Lemma calculate_sum_app_fails_on_floats :
  exists a b c,
    calculate_sum [VFloat 1e16] [] = Ok (VFloat a, []) /\
    calculate_sum [VFloat 1; VFloat 1] [] = Ok (VFloat b, []) /\
    calculate_sum ([VFloat 1e16] ++ [VFloat 1; VFloat 1]) [] = Ok (VFloat c, []) /\
    a = 1e16%float /\ b = 2%float /\ c = 1e16%float /\
    (a + b)%float = 10000000000000002%float /\
    (c =? a + b)%float = false.
Proof.
  eexists _, _, _.
  split; [vm_compute; reflexivity|]. split; [vm_compute; reflexivity|].
  split; [vm_compute; reflexivity|]. now repeat split.
Qed.

(** ** The search targets *)

(** [method_two] looks [method_one] up on its receiver. *)
Example method_two_no_instance :
  SampleClass.method_two (VInt 5) [] = Raise AttributeError.
Proof. reflexivity. Qed.

Example method_two_other_class :
  (self ← DataProcessor.new; SampleClass.method_two self) [] = Raise AttributeError.
Proof. reflexivity. Qed.

(** C8.  The four fixtures of test_functions.py compute nothing and keep no
    state: each returns [None] and leaves the store as it was, [method_two]
    for a receiver that is an instance of [SampleClass]; [another_function]
    gives what [search_target_function] gives and [method_two] what
    [method_one] gives. *)
Theorem fixtures_return_None :
  (forall h : heap, search_target_function h = Ok (VNone, h)) /\
  (forall h : heap, another_function h = Ok (VNone, h)) /\
  (forall (h : heap) (self : value), SampleClass.method_one self h = Ok (VNone, h)) /\
  (forall (h : heap) (l : loc) (attrs : gmap string value),
     h !! l = Some (OInstance "SampleClass" attrs) ->
     attrs !! "method_one" = None ->
     SampleClass.method_two (VRef l) h = Ok (VNone, h) /\
     SampleClass.method_two (VRef l) h = SampleClass.method_one (VRef l) h) /\
  (forall h : heap, another_function h = search_target_function h) /\
  (forall h : heap,
     exists self h0,
       SampleClass.new h = Ok (self, h0) /\
       SampleClass.method_one self h0 = Ok (VNone, h0) /\
       SampleClass.method_two self h0 = Ok (VNone, h0)).
Proof.
  assert (Htwo : forall (h : heap) l attrs,
            h !! l = Some (OInstance "SampleClass" attrs) ->
            attrs !! "method_one" = None ->
            SampleClass.method_two (VRef l) h = Ok (VNone, h)).
  { intros h l attrs Hl Hattr. unfold SampleClass.method_two.
    step by (unfold resolve; rewrite Hl, Hattr; reflexivity).
    reflexivity. }
  repeat split; try reflexivity.
  - now apply Htwo with attrs.
  - now apply Htwo with attrs.
  - intros h. exists (VRef (List.length h)), (h ++ [OInstance "SampleClass" ∅]).
    repeat split. apply Htwo with ∅; [|reflexivity].
    now apply list_lookup_middle.
Qed.

Lemma fixtures_return_None_witness :
  [OInstance "SampleClass" ∅] !! 0%nat = Some (OInstance "SampleClass" ∅) /\
  (∅ : gmap string value) !! "method_one" = None /\
  SampleClass.method_two (VRef 0) [OInstance "SampleClass" ∅] =
    Ok (VNone, [OInstance "SampleClass" ∅]).
Proof.
  split; [reflexivity|]. split; [reflexivity|].
  apply (proj1 (proj2 (proj2 (proj2 fixtures_return_None)))
           [OInstance "SampleClass" ∅] 0%nat ∅); reflexivity.
Defined.

(** ** Loading sample.py *)

(** C10.  Loading sample.py binds [processor] to a [DataProcessor] whose
    [data] holds exactly one record, [result] to that record, which is
    [{'id': 0, 'content': "test content", 'status': "processed"}], and
    [total] to 15. *)
Theorem sample_py_globals (h : heap) :
  exists globals h' processor result,
    sample_py h = Ok (globals, h') /\
    globals !! "processor" = Some processor /\
    globals !! "result" = Some result /\
    globals !! "total" = Some (VInt 15) /\
    data_of h' processor = Some [result] /\
    deref h' result =
      Some (ODict {[ "id" := VInt 0;
                     "content" := VStr "test content";
                     "status" := VStr "processed" ]}).
Proof.
  set (cfg := ODict {[ "database_url" := VStr "postgresql://localhost:5432/test";
                       "debug" := VBool true;
                       "max_connections" := VInt 100 ]}).
  set (h0 := h ++ [cfg]).
  destruct (process_data_post _ _ _ (VStr "test content") (new_data_of h0))
    as (ld & h' & _ & Hrun & _ & _ & Hnew & _ & Hdata').
  eexists _, h', _, _. split.
  - unfold sample_py. fold cfg.
    step by (unfold alloc; reflexivity).
    step by apply new_spec.
    erewrite bind_Ok.
    2:{ unfold resolve. fold h0. rewrite lookup_snoc2_fst. reflexivity. }
    step by exact Hrun.
    step by (apply (calculate_sum_ints [1; 2; 3; 4; 5])).
    reflexivity.
  - repeat split; [exact Hdata' | exact Hnew].
Qed.

(** ** Separate processors *)

Lemma data_loc_of h self xs :
  data_of h self = Some xs ->
  exists l cls attrs ld,
    self = VRef l /\ h !! l = Some (OInstance cls attrs) /\
    attrs !! "data" = Some (VRef ld) /\ h !! ld = Some (OList xs) /\
    data_loc h self = Some ld.
Proof.
  intros (l & cls & attrs & ld & -> & Hl & Hd & Hld)%data_of_Some.
  exists l, cls, attrs, ld. repeat split; try assumption.
  unfold data_loc, deref. now rewrite Hl, Hd, Hld.
Qed.

(** Objects allocated later do not change what [self.data] is. *)
Lemma data_of_extend h k self xs :
  data_of h self = Some xs ->
  data_of (h ++ k) self = Some xs /\ data_loc (h ++ k) self = data_loc h self.
Proof.
  intros (l & cls & attrs & ld & -> & Hl & Hd & Hld & Hloc)%data_loc_of.
  rewrite Hloc. unfold data_of, data_loc, deref.
  rewrite (lookup_app_l_Some _ _ _ _ Hl), Hd, (lookup_app_l_Some _ _ _ _ Hld).
  now split.
Qed.

(** A call on [p] seen from another processor [q] with a list of its own. *)
Lemma process_data_other h p q xs ys x :
  data_of h p = Some xs ->
  data_of h q = Some ys ->
  data_loc h p <> data_loc h q ->
  exists h',
    DataProcessor.process_data p x h = Ok (VRef (List.length h), h') /\
    data_of h' p = Some (xs ++ [VRef (List.length h)]) /\
    data_of h' q = Some ys /\
    data_loc h' p = data_loc h p /\
    data_loc h' q = data_loc h q.
Proof.
  intros (l & cls & attrs & ld & -> & Hl & Hd & Hld & Hloc)%data_loc_of.
  intros (lq & clsq & attrsq & ldq & -> & Hlq & Hdq & Hldq & Hlocq)%data_loc_of.
  rewrite Hloc, Hlocq. intros Hne.
  assert (ld <> ldq) by congruence.
  assert (l <> ld) by (intros ->; congruence).
  assert (lq <> ld) by (intros ->; congruence).
  pose proof (lookup_lt_Some _ _ _ Hld) as Lld.
  set (o := ODict (record (List.length xs) x)).
  set (h' := <[ld := OList (xs ++ [VRef (List.length h)])]> (h ++ [o])).
  assert (Hkeep : forall k v, k <> ld -> h !! k = Some v -> h' !! k = Some v).
  { intros k v Hk Hv. unfold h'. rewrite list_lookup_insert_ne by congruence.
    now apply lookup_app_l_Some. }
  assert (Hnew : h' !! ld = Some (OList (xs ++ [VRef (List.length h)]))).
  { unfold h'. apply list_lookup_insert_eq. rewrite length_app. simpl. lia. }
  exists h'. split; [now apply process_data_step with cls attrs|].
  unfold data_of, data_loc, deref.
  rewrite (Hkeep l _ ltac:(assumption) Hl), (Hkeep lq _ ltac:(assumption) Hlq).
  rewrite Hd, Hdq, Hnew, (Hkeep ldq _ ltac:(congruence) Hldq).
  now repeat split.
Qed.

(** A run of calls on [p] seen from [q]. *)
Lemma process_all_other (inputs : list value) :
  forall (h : heap) (p q : value) (xs ys : list value),
    data_of h p = Some xs ->
    data_of h q = Some ys ->
    data_loc h p <> data_loc h q ->
    exists rs h',
      process_all p inputs h = Ok (rs, h') /\
      data_of h' p = Some (xs ++ rs) /\
      data_of h' q = Some ys /\
      data_loc h' p <> data_loc h' q.
Proof.
  induction inputs as [|x inputs IH]; intros h p q xs ys Hp Hq Hne.
  - exists [], h. rewrite app_nil_r. now repeat split.
  - destruct (process_data_other h p q xs ys x Hp Hq Hne)
      as (h1 & Hrun1 & Hp1 & Hq1 & Hlp & Hlq).
    destruct (IH h1 p q _ ys Hp1 Hq1) as (rs & h2 & Hrun2 & Hp2 & Hq2 & Hne2);
      [congruence|].
    exists (VRef (List.length h) :: rs), h2. split.
    + simpl. step by exact Hrun1. step by exact Hrun2. reflexivity.
    + rewrite Hp2, <- app_assoc. now repeat split.
Qed.

(** A new processor next to one that exists. *)
Lemma new_other h q ys :
  data_of h q = Some ys ->
  data_of (h ++ [OInstance "DataProcessor" {[ "data" := VRef (S (List.length h)) ]};
                 OList []]) q = Some ys /\
  data_loc (h ++ [OInstance "DataProcessor" {[ "data" := VRef (S (List.length h)) ]};
                  OList []]) (VRef (List.length h)) <>
  data_loc (h ++ [OInstance "DataProcessor" {[ "data" := VRef (S (List.length h)) ]};
                  OList []]) q.
Proof.
  intros Hq.
  destruct (data_of_extend h
              [OInstance "DataProcessor" {[ "data" := VRef (S (List.length h)) ]};
               OList []] q ys Hq) as [Hq' Hloc'].
  split; [exact Hq'|]. rewrite Hloc'.
  destruct (data_loc_of h q ys Hq) as (l & cls & attrs & ld & _ & _ & _ & Hld & ->).
  pose proof (lookup_lt_Some _ _ _ Hld) as Lld.
  unfold data_loc, deref. rewrite lookup_snoc2_fst, lookup_singleton_eq.
  rewrite lookup_snoc2_snd. intros [= E]. lia.
Qed.

(** Identifiers read before stay readable where dicts are kept. *)
Lemma ids_of_kept (h h' : heap) rs k n :
  (forall l d, h !! l = Some (ODict d) -> h' !! l = Some (ODict d)) ->
  ids_of h rs = id_range k n -> ids_of h' rs = id_range k n.
Proof.
  intros Hkeep Hids. rewrite <- Hids. unfold ids_of. apply list_eq. intros i.
  rewrite !list_lookup_fmap. destruct (rs !! i) as [r|] eqn:Er; [simpl|reflexivity].
  assert (Hi : ids_of h rs !! i = Some (field h r "id"))
    by (unfold ids_of; now rewrite list_lookup_fmap, Er).
  rewrite Hids in Hi. unfold id_range in Hi. rewrite list_lookup_fmap in Hi.
  destruct (seq k n !! i) as [j|]; [|discriminate]. simpl in Hi.
  injection Hi as Hi. f_equal. rewrite <- Hi. symmetry in Hi.
  now apply (field_kept h h' r "id" _ Hkeep).
Qed.

(** X2.  Processors with separate lists do not interfere: a run of calls on
    [p] leaves [q.data] as it was, whatever the inputs.  Two processors
    made by [DataProcessor()] have separate lists, so each keeps its own
    records and counts its identifiers from 0. *)
Theorem processors_independent :
  (forall (inputs : list value) (h : heap) (p q : value) (xs ys : list value),
     data_of h p = Some xs ->
     data_of h q = Some ys ->
     data_loc h p <> data_loc h q ->
     exists rs h',
       process_all p inputs h = Ok (rs, h') /\
       data_of h' p = Some (xs ++ rs) /\
       data_of h' q = Some ys)
  /\
  (forall (h : heap) (inputs1 inputs2 : list value),
     exists p h1 q h2 rs1 h3 rs2 h4,
       DataProcessor.new h = Ok (p, h1) /\
       DataProcessor.new h1 = Ok (q, h2) /\
       process_all p inputs1 h2 = Ok (rs1, h3) /\
       process_all q inputs2 h3 = Ok (rs2, h4) /\
       data_of h4 p = Some rs1 /\
       data_of h4 q = Some rs2 /\
       ids_of h4 rs1 = id_range 0 (List.length inputs1) /\
       ids_of h4 rs2 = id_range 0 (List.length inputs2)).
Proof.
  split.
  - intros inputs h p q xs ys Hp Hq Hne.
    destruct (process_all_other inputs h p q xs ys Hp Hq Hne)
      as (rs & h' & Hrun & Hp' & Hq' & _).
    now exists rs, h'.
  - intros h inputs1 inputs2.
    set (h1 := h ++ [OInstance "DataProcessor" {[ "data" := VRef (S (List.length h)) ]};
                     OList []]).
    set (h2 := h1 ++ [OInstance "DataProcessor" {[ "data" := VRef (S (List.length h1)) ]};
                      OList []]).
    destruct (new_other h1 (VRef (List.length h)) [] (new_data_of h)) as [Hp2 Hne2].
    pose proof (new_data_of h1) as Hq2. fold h2 in Hp2, Hne2, Hq2.
    destruct (process_all_post inputs1 h2 _ _ Hp2)
      as (h3 & Hrun1 & _ & _ & Hrow1 & _).
    destruct (process_all_other inputs1 h2 _ _ _ _ Hp2 Hq2 (not_eq_sym Hne2))
      as (rs1 & h3' & Hrun1' & Hp3 & Hq3 & Hne3).
    rewrite Hrun1 in Hrun1'. injection Hrun1' as <- <-.
    destruct (process_all_post inputs2 h3 _ _ Hq3)
      as (h4 & Hrun2 & _ & _ & Hrow2 & Hkeep2).
    destruct (process_all_other inputs2 h3 _ _ _ _ Hq3 Hp3 (not_eq_sym Hne3))
      as (rs2 & h4' & Hrun2' & Hq4 & Hp4 & _).
    rewrite Hrun2 in Hrun2'. injection Hrun2' as <- <-.
    eexists _, h1, _, h2, _, h3, _, h4.
    split; [apply new_spec|]. split; [apply new_spec|].
    split; [exact Hrun1|]. split; [exact Hrun2|].
    split; [exact Hp4|]. split; [exact Hq4|]. split.
    + apply (ids_of_kept h3 h4 _ _ _ Hkeep2). now apply ids_of_row.
    + now apply ids_of_row.
Qed.

Lemma processors_independent_witness :
  data_of two_processors (VRef 0) = Some [VRef 2] /\
  data_of two_processors (VRef 3) = Some [] /\
  data_loc two_processors (VRef 0) <> data_loc two_processors (VRef 3) /\
  exists rs h',
    process_all (VRef 0) [VInt 1; VInt 1] two_processors = Ok (rs, h') /\
    data_of h' (VRef 0) = Some ([VRef 2] ++ rs) /\
    data_of h' (VRef 3) = Some [].
Proof.
  assert (Hne : data_loc two_processors (VRef 0) <> data_loc two_processors (VRef 3))
    by (vm_compute; discriminate).
  split; [reflexivity|]. split; [reflexivity|]. split; [exact Hne|].
  exact (proj1 processors_independent [VInt 1; VInt 1] two_processors (VRef 0) (VRef 3)
           [VRef 2] [] eq_refl eq_refl Hne).
Defined.

(** X3.  [DataProcessor()] allocates: the instance it returns is no object
    of the store before, every object of that store stays as it is, the
    new [data] is an empty list, and it is no list of a processor that
    existed before, whose [data] is unchanged. *)
Theorem new_is_fresh (h : heap) :
  exists p h',
    DataProcessor.new h = Ok (p, h') /\
    deref h p = None /\
    (forall l o, h !! l = Some o -> h' !! l = Some o) /\
    data_of h' p = Some [] /\
    (forall q ys, data_of h q = Some ys ->
       data_of h' q = Some ys /\ data_loc h' p <> data_loc h' q).
Proof.
  eexists _, _. split; [apply new_spec|]. split; [|split; [|split]].
  - simpl. now apply lookup_ge_None.
  - intros l o Hl. now apply lookup_app_l_Some.
  - apply new_data_of.
  - intros q ys Hq. now apply new_other.
Qed.

Lemma new_is_fresh_witness :
  data_of one_record (VRef 0) = Some [VRef 2] /\
  exists p h',
    DataProcessor.new one_record = Ok (p, h') /\
    data_of h' (VRef 0) = Some [VRef 2] /\
    data_loc h' p <> data_loc h' (VRef 0).
Proof.
  split; [reflexivity|].
  destruct (new_is_fresh one_record) as (p & h' & Hnew & _ & _ & _ & Hold).
  exists p, h'. split; [exact Hnew|].
  apply (Hold (VRef 0) [VRef 2]). reflexivity.
Defined.

Lemma NoDup_id_range k n : NoDup (id_range k n).
Proof.
  unfold id_range. apply NoDup_fmap_2; [|apply NoDup_seq].
  intros i j [= E]. lia.
Qed.

(** X4.  Every call of a run returns a new object: the returned references
    are pairwise different, even for equal inputs, none of them is an
    object of the store before the run, each refers to a dict afterwards,
    and their ['id'] fields are pairwise different. *)
Theorem records_are_new_objects (inputs : list value) (h : heap) (self : value)
    (xs : list value) :
  data_of h self = Some xs ->
  exists rs h',
    process_all self inputs h = Ok (rs, h') /\
    NoDup rs /\
    NoDup (ids_of h' rs) /\
    (forall r, r ∈ rs ->
       deref h r = None /\ exists d, deref h' r = Some (ODict d)).
Proof.
  intros Hdata.
  destruct (process_all_post inputs h self xs Hdata)
    as (h' & Hrun & _ & _ & Hrow & _).
  eexists _, h'. split; [exact Hrun|]. split; [|split].
  - apply NoDup_fmap_2; [|apply NoDup_seq]. now intros i j [= E].
  - rewrite (ids_of_row h' _ (List.length xs) inputs Hrow). apply NoDup_id_range.
  - intros r (i & -> & Hi)%list_elem_of_fmap. apply elem_of_seq in Hi as [Hlo Hhi].
    split; [simpl; apply lookup_ge_None; lia|].
    destruct (lookup_lt_is_Some_2 inputs (i - List.length h)) as [x Hx]; [lia|].
    exists (record (List.length xs + (i - List.length h)) x). simpl.
    rewrite <- (Hrow _ x Hx). f_equal. lia.
Qed.

Lemma records_are_new_objects_witness :
  data_of one_record (VRef 0) = Some [VRef 2] /\
  exists rs h',
    process_all (VRef 0) [VStr "a"; VStr "a"] one_record = Ok (rs, h') /\
    NoDup rs /\
    NoDup (ids_of h' rs) /\
    (forall r, r ∈ rs ->
       deref one_record r = None /\ exists d, deref h' r = Some (ODict d)).
Proof.
  split; [reflexivity|].
  apply (records_are_new_objects [VStr "a"; VStr "a"] one_record (VRef 0) [VRef 2]).
  reflexivity.
Defined.

(** ** Where the processor fails, and initialising again *)

Lemma process_data_fails h self x :
  data_of h self = None ->
  exists e, DataProcessor.process_data self x h = Raise e.
Proof.
  unfold data_of, deref. intros E. unfold DataProcessor.process_data.
  destruct self as [| | | | |l]; try (eexists; reflexivity).
  destruct (h !! l) as [[|?|cls attrs]|] eqn:El;
    try (eexists; apply bind_Raise; unfold getattr; rewrite El; reflexivity).
  destruct (attrs !! "data") as [d|] eqn:Ed;
    [| eexists; apply bind_Raise; unfold getattr; rewrite El, Ed; reflexivity].
  step by (unfold getattr; rewrite El, Ed; reflexivity).
  assert (Hgrow : forall o, (h ++ [o]) !! l = Some (OInstance cls attrs))
    by (intros o; now apply lookup_app_l_Some).
  destruct d as [| | | |s|ld]; try (eexists; reflexivity).
  - step by reflexivity. step by (unfold alloc; reflexivity).
    step by (unfold getattr; rewrite Hgrow, Ed; reflexivity).
    eexists. reflexivity.
  - destruct (h !! ld) as [[|d|]|] eqn:Eld; try discriminate;
      try (eexists; apply bind_Raise; unfold len; rewrite Eld; reflexivity).
    step by (unfold len; rewrite Eld; reflexivity).
    step by (unfold alloc; reflexivity).
    step by (unfold getattr; rewrite Hgrow, Ed; reflexivity).
    eexists. apply bind_Raise. unfold append.
    now rewrite (lookup_app_l_Some _ _ _ _ Eld).
Qed.

(** X1.  [process_data] returns exactly when [self] is an instance whose
    [data] attribute is a list; on every other receiver it raises. *)
Theorem process_data_succeeds_iff (h : heap) (self x : value) :
  (exists r h', DataProcessor.process_data self x h = Ok (r, h')) <->
  is_Some (data_of h self).
Proof.
  split.
  - intros (r & h' & Hrun). destruct (data_of h self) as [xs|] eqn:E; [now exists xs|].
    destruct (process_data_fails h self x E) as [e He]. congruence.
  - intros [xs Hdata].
    destruct (process_data_post h self xs x Hdata) as (ld & h' & _ & Hrun & _).
    now exists (VRef (List.length h)), h'.
Qed.

Lemma process_data_succeeds_iff_witness :
  (exists r h', DataProcessor.process_data (VRef 0) VNone one_record = Ok (r, h')) /\
  ~ (exists r h', DataProcessor.process_data (VRef 1) VNone one_record = Ok (r, h')).
Proof.
  split.
  - apply (proj2 (process_data_succeeds_iff one_record (VRef 0) VNone)).
    eexists. reflexivity.
  - intros Hok.
    destruct (proj1 (process_data_succeeds_iff one_record (VRef 1) VNone) Hok)
      as [xs Hxs].
    discriminate Hxs.
Defined.

(** X5.  [__init__] on an instance binds [data] to a new empty list,
    whatever [data] was before: every other object stays as it is, and the
    next call of [process_data] returns identifier 0 again. *)
Theorem init_resets (h : heap) (l : loc) (cls : string) (attrs : gmap string value) :
  h !! l = Some (OInstance cls attrs) ->
  exists h',
    DataProcessor.__init__ (VRef l) h = Ok (VNone, h') /\
    data_of h' (VRef l) = Some [] /\
    (forall k o, k <> l -> h !! k = Some o -> h' !! k = Some o) /\
    (forall x, exists r h'',
       DataProcessor.process_data (VRef l) x h' = Ok (r, h'') /\
       field h'' r "id" = Some (VInt 0)).
Proof.
  intros Hl. pose proof (lookup_lt_Some _ _ _ Hl) as Ll.
  set (h' := <[l := OInstance cls (<["data" := VRef (List.length h)]> attrs)]>
               (h ++ [OList []])).
  assert (Hdata : data_of h' (VRef l) = Some []).
  { unfold data_of, deref, h'.
    rewrite list_lookup_insert_eq by (rewrite length_app; simpl; lia).
    rewrite lookup_insert_eq.
    rewrite list_lookup_insert_ne by lia.
    now rewrite list_lookup_middle. }
  exists h'. split; [|split; [exact Hdata|split]].
  - unfold DataProcessor.__init__.
    step by (unfold alloc; reflexivity).
    step by (unfold setattr; rewrite (lookup_app_l_Some _ _ _ _ Hl); reflexivity).
    reflexivity.
  - intros k o Hk Ho. unfold h'. rewrite list_lookup_insert_ne by congruence.
    now apply lookup_app_l_Some.
  - intros x.
    destruct (process_data_post h' _ _ x Hdata) as (ld & h'' & _ & Hrun & _ & _ & Hnew & _).
    exists (VRef (List.length h')), h''. split; [exact Hrun|].
    unfold field, deref. now rewrite Hnew.
Qed.

Lemma init_resets_witness :
  one_record !! 0%nat = Some (OInstance "DataProcessor" {[ "data" := VRef 1 ]}) /\
  exists h',
    DataProcessor.__init__ (VRef 0) one_record = Ok (VNone, h') /\
    data_of h' (VRef 0) = Some [] /\
    (forall k o, k <> 0%nat -> one_record !! k = Some o -> h' !! k = Some o) /\
    (forall x, exists r h'',
       DataProcessor.process_data (VRef 0) x h' = Ok (r, h'') /\
       field h'' r "id" = Some (VInt 0)).
Proof.
  split; [reflexivity|].
  apply (init_resets one_record 0%nat "DataProcessor" {[ "data" := VRef 1 ]}).
  reflexivity.
Defined.

(** ** More on the summation helper *)






Lemma for_in_iadd_perm vs ws :
  vs ≡ₚ ws ->
  no_float vs = true ->
  no_float ws = true /\
  forall z h,
    for_in (fun total num => iadd total num) (NInt z) vs h =
    for_in (fun total num => iadd total num) (NInt z) ws h.
Proof.
  induction 1 as [|v vs ws _ IH|v w vs|vs ws us _ IH1 _ IH2]; intros Hnf.
  - now split.
  - simpl in Hnf. apply andb_prop in Hnf as [Hv Hnf].
    destruct (IH Hnf) as [Hnf' Heq]. split; [simpl; now rewrite Hv, Hnf'|].
    intros z h. simpl. unfold mbind, M_bind.
    destruct v as [|b|y|f|s|l]; try discriminate; try reflexivity; simpl; apply Heq.
  - simpl in Hnf. apply andb_prop in Hnf as [Hw Hnf].
    apply andb_prop in Hnf as [Hv Hnf].
    split; [simpl; now rewrite Hv, Hw, Hnf|].
    intros z h. simpl. unfold mbind, M_bind.
    destruct v as [|b|y|f|s|l], w as [|b'|y'|f'|s'|l'];
      try discriminate; try reflexivity; simpl;
      match goal with
      | |- for_in _ (NInt ?p) _ _ = for_in _ (NInt ?q) _ _ =>
          now replace p with q by lia
      end.
  - destruct (IH1 Hnf) as [Hnf1 Heq1]. destruct (IH2 Hnf1) as [Hnf2 Heq2].
    split; [exact Hnf2|]. intros z h. now rewrite Heq1.
Qed.

(** With floats the order does matter. *)
Example calculate_sum_float_order :
  calculate_sum [VFloat 1e16; VFloat 1; VFloat (-1e16)] [] = Ok (VFloat 0, []) /\
  calculate_sum [VFloat 1e16; VFloat (-1e16); VFloat 1] [] = Ok (VFloat 1, []).
Proof. split; vm_compute; reflexivity. Qed.

(** X7.  On [int]s and [bool]s the order of the elements does not matter
    to [calculate_sum]: a rearrangement of the input has the same sum; and
    with [None], a [str], a list, a dict or an instance among them, every
    order fails with a TypeError.  The input has no [float]. *)
Theorem calculate_sum_permutation (vs ws : list value) (h : heap) :
  no_float vs = true ->
  vs ≡ₚ ws ->
  calculate_sum vs h = calculate_sum ws h.
Proof.
  intros Hnf Hperm. unfold calculate_sum, mbind, M_bind.
  destruct (for_in_iadd_perm vs ws Hperm Hnf) as [_ Heq].
  now rewrite Heq.
Qed.

Lemma calculate_sum_permutation_witness :
  no_float [VInt 5; VBool true; VInt (-2)] = true /\
  [VInt 5; VBool true; VInt (-2)] ≡ₚ [VBool true; VInt 5; VInt (-2)] /\
  calculate_sum [VInt 5; VBool true; VInt (-2)] [] =
    calculate_sum [VBool true; VInt 5; VInt (-2)] [].
Proof.
  split; [reflexivity|]. split; [apply perm_swap|].
  apply (calculate_sum_permutation [VInt 5; VBool true; VInt (-2)]
           [VBool true; VInt 5; VInt (-2)] []); [reflexivity | apply perm_swap].
Defined.

(** ** More on the search targets *)

(** X9.  [method_two] needs a receiver that provides [method_one]: on
    [None], a [bool], a number, a [str], a list, a dict and an instance of
    [DataProcessor] without an attribute of that name, the lookup
    [self.method_one] raises an AttributeError. *)
Theorem method_two_AttributeError (h : heap) (self : value) :
  lacks_method_one h self = true ->
  SampleClass.method_two self h = Raise AttributeError.
Proof.
  unfold lacks_method_one. intros Hlacks.
  unfold SampleClass.method_two. apply bind_Raise. unfold resolve.
  destruct self as [| | | | |l]; try reflexivity.
  destruct (h !! l) as [[|?|cls attrs]|]; try reflexivity; try discriminate.
  destruct (attrs !! "method_one"); [discriminate|].
  apply bool_decide_eq_true in Hlacks as ->. reflexivity.
Qed.

Lemma method_two_AttributeError_witness :
  lacks_method_one one_record (VRef 0) = true /\
  SampleClass.method_two (VRef 0) one_record = Raise AttributeError.
Proof.
  split; [reflexivity|].
  apply (method_two_AttributeError one_record (VRef 0)). reflexivity.
Defined.

(** ** More on loading sample.py *)

(** X8.  Loading sample.py changes no object that existed, and binds
    [CONFIGURATION] to a new dict of its own, which is neither the
    processor nor its record and holds the three settings. *)
Theorem sample_py_configuration (h : heap) :
  exists globals h' c,
    sample_py h = Ok (globals, h') /\
    globals !! "CONFIGURATION" = Some c /\
    globals !! "processor" <> Some c /\
    globals !! "result" <> Some c /\
    deref h c = None /\
    deref h' c =
      Some (ODict {[ "database_url" := VStr "postgresql://localhost:5432/test";
                     "debug" := VBool true;
                     "max_connections" := VInt 100 ]}) /\
    (forall l o, h !! l = Some o -> h' !! l = Some o).
Proof.
  set (cfg := ODict {[ "database_url" := VStr "postgresql://localhost:5432/test";
                       "debug" := VBool true;
                       "max_connections" := VInt 100 ]}).
  set (h0 := h ++ [cfg]).
  set (inst := OInstance "DataProcessor" {[ "data" := VRef (S (List.length h0)) ]}).
  set (h1 := h0 ++ [inst; OList []]).
  set (h' := <[S (List.length h0) := OList ([] ++ [VRef (List.length h1)])]>
               (h1 ++ [ODict (record 0 (VStr "test content"))])).
  assert (L0 : List.length h0 = S (List.length h))
    by (unfold h0; rewrite length_app; simpl; lia).
  assert (L1 : List.length h1 = S (S (S (List.length h))))
    by (unfold h1; rewrite length_app, L0; simpl; lia).
  assert (Hrun : DataProcessor.process_data (VRef (List.length h0))
                   (VStr "test content") h1 = Ok (VRef (List.length h1), h')).
  { apply (process_data_step h1 (List.length h0) "DataProcessor"
             {[ "data" := VRef (S (List.length h0)) ]} (S (List.length h0)) []).
    - apply lookup_snoc2_fst.
    - apply lookup_singleton_eq.
    - apply lookup_snoc2_snd. }
  assert (Hkeep : forall l o, h0 !! l = Some o -> h' !! l = Some o).
  { intros l o Hl. pose proof (lookup_lt_Some _ _ _ Hl) as Ll. unfold h'.
    rewrite list_lookup_insert_ne by lia.
    apply lookup_app_l_Some. now apply lookup_app_l_Some. }
  eexists _, h', (VRef (List.length h)). split; [|split; [|split; [|split]]].
  - unfold sample_py. fold cfg.
    step by (unfold alloc; reflexivity).
    step by apply new_spec.
    step by (unfold resolve; fold h0; fold inst; fold h1;
             unfold h1, inst; rewrite lookup_snoc2_fst; reflexivity).
    step by exact Hrun.
    step by (apply (calculate_sum_ints [1; 2; 3; 4; 5])).
    reflexivity.
  - reflexivity.
  - replace (_ !! "processor") with (Some (VRef (List.length h0))) by reflexivity.
    rewrite L0. intros [= E]. lia.
  - replace (_ !! "result") with (Some (VRef (List.length h1))) by reflexivity.
    rewrite L1. intros [= E]. lia.
  - split; [|split].
    + simpl. now apply lookup_ge_None.
    + simpl. apply Hkeep. now apply list_lookup_middle.
    + intros l o Hl. apply Hkeep. now apply lookup_app_l_Some.
Qed.

Lemma sample_py_configuration_witness :
  one_record !! 1%nat = Some (OList [VRef 2]) /\
  exists globals h',
    sample_py one_record = Ok (globals, h') /\
    h' !! 1%nat = Some (OList [VRef 2]).
Proof.
  split; [reflexivity|].
  destruct (sample_py_configuration one_record)
    as (globals & h' & c & Hrun & _ & _ & _ & _ & _ & Hkeep).
  exists globals, h'. split; [exact Hrun|].
  apply (Hkeep 1%nat (OList [VRef 2])). reflexivity.
Defined.
